(** * larq.activations: hard_tanh, hard_sigmoid, leaky_tanh and their layers

    Shallow embedding of [src/larq/activations.py] over the real numbers.
    The TensorFlow primitives the module calls ([tf.clip_by_value],
    [tf.math.maximum], [tf.math.minimum] and the arithmetic operators with a
    scalar operand) are element-wise; their per-element kernel is modelled in
    [Kernel], the tensor operations in [Tensor], and the two Keras layers in
    [Layers]. *)

From Stdlib Require Import Reals Psatz String List.
Import ListNotations.
Open Scope R_scope.

(** ** Per-element kernels *)
Module Kernel.

(** [tf.clip_by_value(t, lo, hi)] computes [minimum(t, hi)] first and then
    [maximum(_, lo)]. *)
Definition clip_by_value (x lo hi : R) : R := Rmax (Rmin x hi) lo.

(** [hard_tanh(x, lower_b=-1.0, upper_b=1.0)], one element. *)
Definition hard_tanh (x lower_b upper_b : R) : R := clip_by_value x lower_b upper_b.

(** [hard_tanh(x)] with its default bounds. *)
Definition hard_tanh_default (x : R) : R := hard_tanh x (-1) 1.

(** [hard_sigmoid(x) = tf.clip_by_value(x+0.5, 0.0, 1.0)], one element. *)
Definition hard_sigmoid (x : R) : R := clip_by_value (x + /2) 0 1.

(** [leaky_tanh(x, alpha=0.2)], one element:
    [clip_by_value(x,-1,1) + (maximum(x,1) - 1) * alpha + (minimum(x,-1) + 1) * alpha]. *)
Definition leaky_tanh (x alpha : R) : R :=
  clip_by_value x (-1) 1 + (Rmax x 1 - 1) * alpha + (Rmin x (-1) + 1) * alpha.

End Kernel.

(** ** Tensors and the element-wise TensorFlow operations *)
Module Tensor.

(** A tensor: its shape and its elements in row-major order. *)
Record tensor := mkTensor { shape : list nat; data : list R }.

Definition numel (s : list nat) : nat := fold_right Nat.mul 1%nat s.

Definition well_formed (t : tensor) : Prop := length (data t) = numel (shape t).

(** An element-wise unary operation (also a binary one with a scalar operand,
    which TensorFlow broadcasts to every element). *)
Definition tmap (f : R -> R) (t : tensor) : tensor :=
  mkTensor (shape t) (map f (data t)).

Fixpoint zip_with (f : R -> R -> R) (l m : list R) : list R :=
  match l, m with
  | a :: l', b :: m' => f a b :: zip_with f l' m'
  | _, _ => []
  end.

(** Tensor-tensor addition. Both operands have the same shape wherever this
    module adds two tensors; broadcasting between different shapes is not
    modelled and yields [None]. *)
Definition add (a b : tensor) : option tensor :=
  if list_eq_dec Nat.eq_dec (shape a) (shape b)
  then Some (mkTensor (shape a) (zip_with Rplus (data a) (data b)))
  else None.

Definition clip_by_value (t : tensor) (lo hi : R) : tensor :=
  tmap (fun v => Rmax v lo) (tmap (fun v => Rmin v hi) t).
Definition maximum (t : tensor) (c : R) : tensor := tmap (fun v => Rmax v c) t.
Definition minimum (t : tensor) (c : R) : tensor := tmap (fun v => Rmin v c) t.
Definition add_scalar (t : tensor) (c : R) : tensor := tmap (fun v => v + c) t.
Definition sub_scalar (t : tensor) (c : R) : tensor := tmap (fun v => v - c) t.
Definition mul_scalar (t : tensor) (c : R) : tensor := tmap (fun v => v * c) t.

Definition hard_tanh (x : tensor) (lower_b upper_b : R) : tensor :=
  clip_by_value x lower_b upper_b.

Definition hard_sigmoid (x : tensor) : tensor :=
  clip_by_value (add_scalar x (/2)) 0 1.

(** Python's [+] is left-associative: [(clip + leak_hi) + leak_lo]. *)
Definition leaky_tanh (x : tensor) (alpha : R) : option tensor :=
  match add (clip_by_value x (-1) 1) (mul_scalar (sub_scalar (maximum x 1) 1) alpha) with
  | Some s => add s (mul_scalar (add_scalar (minimum x (-1)) 1) alpha)
  | None => None
  end.

(** [out] is the element-wise image of [t] under [f]: same shape, same number
    of elements, and element [i] of [out] is [f] of element [i] of [t]. *)
Definition elementwise (f : R -> R) (t out : tensor) : Prop :=
  shape out = shape t /\ length (data out) = length (data t) /\
  forall i, nth_error (data out) i = option_map f (nth_error (data t) i).

End Tensor.

(** ** The Keras layers [HardTanh] and [HardSigmoid] *)
Module Layers.

(** A [HardTanh] instance: the two attributes set by [__init__] and the weight
    list kept by the Keras [Layer] base class. *)
Record HardTanh := mkHardTanh {
  lower_b : R;
  upper_b : R;
  ht_trainable_weights : list Tensor.tensor
}.

(** [HardTanh.__init__]: stores the bounds; [Layer.__init__] starts with no
    weights and the class never calls [add_weight]. *)
Definition HardTanh_init (lower_b upper_b : R) : HardTanh :=
  mkHardTanh lower_b upper_b [].

Definition HardTanh_call (self : HardTanh) (inputs : Tensor.tensor) : Tensor.tensor :=
  Tensor.hard_tanh inputs (lower_b self) (upper_b self).

Definition HardTanh_trainable_weights (self : HardTanh) : list Tensor.tensor :=
  ht_trainable_weights self.

(** The overriding [non_trainable_weights] property. *)
Definition HardTanh_non_trainable_weights (self : HardTanh) : list Tensor.tensor := [].

Definition HardTanh_compute_output_shape (self : HardTanh) (input_shape : list nat) : list nat :=
  input_shape.

(** A [HardSigmoid] instance has no attribute of its own. *)
Record HardSigmoid := mkHardSigmoid { hs_trainable_weights : list Tensor.tensor }.

Definition HardSigmoid_init : HardSigmoid := mkHardSigmoid [].

Definition HardSigmoid_call (self : HardSigmoid) (inputs : Tensor.tensor) : Tensor.tensor :=
  Tensor.hard_sigmoid inputs.

Definition HardSigmoid_trainable_weights (self : HardSigmoid) : list Tensor.tensor :=
  hs_trainable_weights self.

Definition HardSigmoid_non_trainable_weights (self : HardSigmoid) : list Tensor.tensor := [].

Definition HardSigmoid_compute_output_shape (self : HardSigmoid) (input_shape : list nat) : list nat :=
  input_shape.

End Layers.

(** ** Layer configurations ([get_config]) *)
Module Config.

(** The Python values a layer configuration holds. *)
Inductive pyval :=
| PFloat (r : R)
| PStr (s : string)
| PBool (b : bool)
| PNone.

(** A Python [dict] with string keys, in insertion order. *)
Definition dict := list (string * pyval).

Fixpoint lookup (k : string) (d : dict) : option pyval :=
  match d with
  | [] => None
  | (k', v) :: d' => if String.eqb k k' then Some v else lookup k d'
  end.

(** [d[k] = v]: an existing key keeps its position and gets the new value;
    a new key is appended. *)
Fixpoint set (k : string) (v : pyval) (d : dict) : dict :=
  match d with
  | [] => [(k, v)]
  | (k', v') :: d' => if String.eqb k k' then (k', v) :: d' else (k', v') :: set k v d'
  end.

Definition keys (d : dict) : list string := map fst d.

(** [HardTanh.get_config]:
    [{**super().get_config(), "lower_b": self.lower_b, "upper_b": self.upper_b}],
    where [base] is the configuration returned by the Keras base class. *)
Definition HardTanh_get_config (self : Layers.HardTanh) (base : dict) : dict :=
  set "upper_b"%string (PFloat (Layers.upper_b self))
    (set "lower_b"%string (PFloat (Layers.lower_b self)) base).

(** [HardSigmoid.get_config]: [{**super().get_config()}]. *)
Definition HardSigmoid_get_config (self : Layers.HardSigmoid) (base : dict) : dict :=
  base.



End Config.

(** ** Helper lemmas *)

Ltac minmax := unfold Rmax, Rmin in *; repeat destruct Rle_dec; lra.

Lemma clip_by_value_in (x lo hi : R) :
  lo <= x <= hi -> Kernel.clip_by_value x lo hi = x.
Proof. unfold Kernel.clip_by_value; intros; minmax. Qed.

Lemma tmap_elementwise (f : R -> R) (t : Tensor.tensor) :
  Tensor.elementwise f t (Tensor.tmap f t).
Proof.
  unfold Tensor.elementwise, Tensor.tmap; simpl.
  split; [reflexivity | split].
  - apply length_map.
  - intro i. apply nth_error_map.
Qed.

Lemma tmap_tmap (f g : R -> R) (t : Tensor.tensor) :
  Tensor.tmap f (Tensor.tmap g t) = Tensor.tmap (fun v => f (g v)) t.
Proof. unfold Tensor.tmap; simpl. now rewrite map_map. Qed.

Lemma zip_with_plus_map (f g : R -> R) (l : list R) :
  Tensor.zip_with Rplus (map f l) (map g l) = map (fun v => f v + g v) l.
Proof. induction l as [|a l IH]; simpl; [reflexivity | now rewrite IH]. Qed.

Lemma add_tmap (f g : R -> R) (t : Tensor.tensor) :
  Tensor.add (Tensor.tmap f t) (Tensor.tmap g t) = Some (Tensor.tmap (fun v => f v + g v) t).
Proof.
  unfold Tensor.add; simpl.
  destruct (list_eq_dec Nat.eq_dec (Tensor.shape t) (Tensor.shape t)) as [_|n];
    [|now contradiction n].
  unfold Tensor.tmap; simpl. now rewrite zip_with_plus_map.
Qed.

Lemma hard_tanh_tmap (t : Tensor.tensor) (lo hi : R) :
  Tensor.hard_tanh t lo hi = Tensor.tmap (fun v => Kernel.hard_tanh v lo hi) t.
Proof. unfold Tensor.hard_tanh, Tensor.clip_by_value. now rewrite tmap_tmap. Qed.

Lemma hard_sigmoid_tmap (t : Tensor.tensor) :
  Tensor.hard_sigmoid t = Tensor.tmap Kernel.hard_sigmoid t.
Proof.
  unfold Tensor.hard_sigmoid, Tensor.clip_by_value, Tensor.add_scalar.
  now rewrite !tmap_tmap.
Qed.

Lemma leaky_tanh_tmap (t : Tensor.tensor) (alpha : R) :
  Tensor.leaky_tanh t alpha = Some (Tensor.tmap (fun v => Kernel.leaky_tanh v alpha) t).
Proof.
  unfold Tensor.leaky_tanh, Tensor.clip_by_value, Tensor.mul_scalar,
    Tensor.sub_scalar, Tensor.add_scalar, Tensor.maximum, Tensor.minimum.
  rewrite !tmap_tmap, add_tmap, add_tmap. reflexivity.
Qed.

(** ** Claims *)

(** C1: for every [x] and [alpha], [leaky_tanh x alpha] is [x] on [[-1, 1]],
    [1 + alpha * (x - 1)] above [1] and [-1 + alpha * (x + 1)] below [-1]. *)
Theorem leaky_tanh_piecewise (x alpha : R) :
  (-1 <= x <= 1 -> Kernel.leaky_tanh x alpha = x) /\
  (x > 1 -> Kernel.leaky_tanh x alpha = 1 + alpha * (x - 1)) /\
  (x < -1 -> Kernel.leaky_tanh x alpha = -1 + alpha * (x + 1)).
Proof.
  unfold Kernel.leaky_tanh.
  split; [|split]; intro H.
  - rewrite clip_by_value_in by lra.
    rewrite (Rmax_right x 1), (Rmin_right x (-1)) by lra. ring.
  - replace (Kernel.clip_by_value x (-1) 1) with 1 by (unfold Kernel.clip_by_value; minmax).
    rewrite (Rmax_left x 1), (Rmin_right x (-1)) by lra. ring.
  - replace (Kernel.clip_by_value x (-1) 1) with (-1) by (unfold Kernel.clip_by_value; minmax).
    rewrite (Rmax_right x 1), (Rmin_left x (-1)) by lra. ring.
Qed.

(** C2: [hard_tanh x lower_b upper_b] is [x] clamped into [[lower_b, upper_b]],
    i.e. [max(lower_b, min(x, upper_b))]; it is [x] when [x] lies within the
    bounds, and with the default bounds it lies in [[-1, 1]] for every [x]. *)
Theorem hard_tanh_clamp (x lower_b upper_b : R) :
  Kernel.hard_tanh x lower_b upper_b = Rmax lower_b (Rmin x upper_b) /\
  (lower_b <= x <= upper_b -> Kernel.hard_tanh x lower_b upper_b = x) /\
  -1 <= Kernel.hard_tanh_default x <= 1.
Proof.
  unfold Kernel.hard_tanh_default, Kernel.hard_tanh, Kernel.clip_by_value.
  split; [apply Rmax_comm | split; [intro; minmax | minmax]].
Qed.

(** C3: [hard_sigmoid x] is [clamp(x + 0.5, 0, 1)], lies in [[0, 1]], and
    [hard_sigmoid(-0.5) = 0], [hard_sigmoid(0.5) = 1], [hard_sigmoid(0) = 0.5]. *)
Theorem hard_sigmoid_clamp (x : R) :
  Kernel.hard_sigmoid x = Rmax 0 (Rmin (x + /2) 1) /\
  0 <= Kernel.hard_sigmoid x <= 1 /\
  Kernel.hard_sigmoid (- /2) = 0 /\
  Kernel.hard_sigmoid (/2) = 1 /\
  Kernel.hard_sigmoid 0 = /2.
Proof.
  unfold Kernel.hard_sigmoid, Kernel.clip_by_value.
  split; [apply Rmax_comm|].
  repeat split; minmax.
Qed.

(** C4: for every tensor (any shape, including the scalar shape [[]] and
    zero-element shapes) each of [hard_tanh], [hard_sigmoid] and
    [leaky_tanh] returns a tensor of the same shape whose element [i] is the
    scalar function applied to element [i] of the input. *)
Theorem activations_elementwise (t : Tensor.tensor) (lower_b upper_b alpha : R) :
  Tensor.elementwise (fun v => Kernel.hard_tanh v lower_b upper_b) t
    (Tensor.hard_tanh t lower_b upper_b) /\
  Tensor.elementwise Kernel.hard_sigmoid t (Tensor.hard_sigmoid t) /\
  exists out, Tensor.leaky_tanh t alpha = Some out /\
    Tensor.elementwise (fun v => Kernel.leaky_tanh v alpha) t out.
Proof.
  rewrite hard_tanh_tmap, hard_sigmoid_tmap, leaky_tanh_tmap.
  split; [apply tmap_elementwise | split; [apply tmap_elementwise|]].
  eexists; split; [reflexivity | apply tmap_elementwise].
Qed.

(** C5: [HardTanh.call] forwards to [hard_tanh] with the bounds given at
    construction, [HardSigmoid.call] forwards to [hard_sigmoid]; both layers
    have no trainable and no non-trainable weights, and [compute_output_shape]
    returns its argument. *)
Theorem layers_forward (lower_b upper_b : R) (inputs : Tensor.tensor) (input_shape : list nat) :
  let ht := Layers.HardTanh_init lower_b upper_b in
  let hs := Layers.HardSigmoid_init in
  Layers.HardTanh_call ht inputs = Tensor.hard_tanh inputs lower_b upper_b /\
  Layers.HardTanh_trainable_weights ht = [] /\
  Layers.HardTanh_non_trainable_weights ht = [] /\
  Layers.HardTanh_compute_output_shape ht input_shape = input_shape /\
  Layers.HardSigmoid_call hs inputs = Tensor.hard_sigmoid inputs /\
  Layers.HardSigmoid_trainable_weights hs = [] /\
  Layers.HardSigmoid_non_trainable_weights hs = [] /\
  Layers.HardSigmoid_compute_output_shape hs input_shape = input_shape.
Proof. repeat split. Qed.

(** C6: [hard_tanh] with its default bounds is idempotent. *)
Theorem hard_tanh_idempotent (x : R) :
  Kernel.hard_tanh_default (Kernel.hard_tanh_default x) = Kernel.hard_tanh_default x.
Proof.
  unfold Kernel.hard_tanh_default, Kernel.hard_tanh.
  apply clip_by_value_in. unfold Kernel.clip_by_value; minmax.
Qed.

(** C7: [hard_tanh(2.0) = 1.0], [hard_tanh(-3.0, -2.0, 2.0) = -2.0],
    [hard_sigmoid(10.0) = 1.0], [leaky_tanh(2.0, 0.2) = 1.2] and
    [leaky_tanh(-2.0, 0.2) = -1.2]. *)
Theorem concrete_cases :
  Kernel.hard_tanh_default 2 = 1 /\
  Kernel.hard_tanh (-3) (-2) 2 = -2 /\
  Kernel.hard_sigmoid 10 = 1 /\
  Kernel.leaky_tanh 2 (2/10) = 12/10 /\
  Kernel.leaky_tanh (-2) (2/10) = -(12/10).
Proof.
  unfold Kernel.hard_tanh_default, Kernel.hard_tanh, Kernel.hard_sigmoid,
    Kernel.leaky_tanh, Kernel.clip_by_value.
  repeat split; minmax.
Qed.

(** C9: [hard_sigmoid x] is [hard_tanh] with bounds [[0, 1]] at [x + 0.5]. *)
Theorem hard_sigmoid_as_hard_tanh (x : R) :
  Kernel.hard_sigmoid x = Kernel.hard_tanh (x + /2) 0 1.
Proof. reflexivity. Qed.

(** C10: for [x <= y], [hard_tanh] (when [lower_b <= upper_b]),
    [hard_sigmoid], and [leaky_tanh] (when [alpha >= 0]) do not decrease. *)
Theorem activations_monotone (x y lower_b upper_b alpha : R) (Hxy : x <= y) :
  (lower_b <= upper_b -> Kernel.hard_tanh x lower_b upper_b <= Kernel.hard_tanh y lower_b upper_b) /\
  Kernel.hard_sigmoid x <= Kernel.hard_sigmoid y /\
  (0 <= alpha -> Kernel.leaky_tanh x alpha <= Kernel.leaky_tanh y alpha).
Proof.
  unfold Kernel.hard_tanh, Kernel.hard_sigmoid, Kernel.leaky_tanh.
  split; [intros; unfold Kernel.clip_by_value; minmax|].
  split; [unfold Kernel.clip_by_value; minmax|].
  intro Ha.
  apply Rplus_le_compat; [apply Rplus_le_compat|];
    [unfold Kernel.clip_by_value; minmax | |];
    apply Rmult_le_compat_r; try assumption; minmax.
Qed.

Lemma activations_monotone_witness :
  0 <= 1 /\
  ((-1 <= 1 -> Kernel.hard_tanh 0 (-1) 1 <= Kernel.hard_tanh 1 (-1) 1) /\
   Kernel.hard_sigmoid 0 <= Kernel.hard_sigmoid 1 /\
   (0 <= 2/10 -> Kernel.leaky_tanh 0 (2/10) <= Kernel.leaky_tanh 1 (2/10))).
Proof. split; [lra | apply (activations_monotone 0 1 (-1) 1 (2/10)); lra]. Defined.

(** ** Further properties of the module *)

Lemma clip_by_value_idem (x lo hi : R) :
  Kernel.clip_by_value (Kernel.clip_by_value x lo hi) lo hi = Kernel.clip_by_value x lo hi.
Proof. unfold Kernel.clip_by_value; minmax. Qed.

Lemma clip_by_value_neg (x : R) :
  Kernel.clip_by_value (- x) (-1) 1 = - Kernel.clip_by_value x (-1) 1.
Proof. unfold Kernel.clip_by_value; minmax. Qed.

Lemma leaky_tanh_split (x alpha : R) :
  Kernel.leaky_tanh x alpha =
  Kernel.clip_by_value x (-1) 1 + alpha * (x - Kernel.clip_by_value x (-1) 1).
Proof.
  unfold Kernel.leaky_tanh.
  destruct (Rle_dec x 1) as [H1|H1]; destruct (Rle_dec (-1) x) as [H2|H2].
  - rewrite clip_by_value_in by lra.
    rewrite (Rmax_right x 1), (Rmin_right x (-1)) by lra. ring.
  - replace (Kernel.clip_by_value x (-1) 1) with (-1) by (unfold Kernel.clip_by_value; minmax).
    rewrite (Rmax_right x 1), (Rmin_left x (-1)) by lra. ring.
  - replace (Kernel.clip_by_value x (-1) 1) with 1 by (unfold Kernel.clip_by_value; minmax).
    rewrite (Rmax_left x 1), (Rmin_right x (-1)) by lra. ring.
  - lra.
Qed.

Lemma lookup_set_same (k : string) (v : Config.pyval) (d : Config.dict) :
  Config.lookup k (Config.set k v d) = Some v.
Proof.
  induction d as [|[k' v'] d IH]; simpl.
  - now rewrite String.eqb_refl.
  - destruct (String.eqb k k') eqn:E; simpl; rewrite E; [reflexivity | exact IH].
Qed.

Lemma lookup_set_other (k k' : string) (v : Config.pyval) (d : Config.dict) :
  k <> k' -> Config.lookup k (Config.set k' v d) = Config.lookup k d.
Proof.
  intro Hne. induction d as [|[k'' v''] d IH]; simpl.
  - apply String.eqb_neq in Hne. now rewrite Hne.
  - destruct (String.eqb k' k'') eqn:E; simpl.
    + apply String.eqb_eq in E; subst k''.
      apply String.eqb_neq in Hne. now rewrite Hne.
    + destruct (String.eqb k k''); [reflexivity | exact IH].
Qed.

Lemma in_keys_set (x k : string) (v : Config.pyval) (d : Config.dict) :
  In x (Config.keys (Config.set k v d)) -> x = k \/ In x (Config.keys d).
Proof.
  induction d as [|[k' v'] d IH]; simpl.
  - intros [H|[]]; now left.
  - destruct (String.eqb k k'); simpl; intros [H|H]; auto.
    destruct (IH H); auto.
Qed.

Lemma set_nodup (k : string) (v : Config.pyval) (d : Config.dict) :
  NoDup (Config.keys d) -> NoDup (Config.keys (Config.set k v d)).
Proof.
  induction d as [|[k' v'] d IH]; simpl; intro Hd.
  - constructor; [intros [] | constructor].
  - inversion Hd as [|? ? Hnin Hd']; subst.
    destruct (String.eqb k k') eqn:E; simpl; [exact Hd|].
    constructor; [|now apply IH].
    intro Hin. destruct (in_keys_set _ _ _ _ Hin) as [->|H]; [|contradiction].
    rewrite String.eqb_refl in E. discriminate.
Qed.


(** X1: when [lower_b <= upper_b], [hard_tanh x lower_b upper_b] lies in
    [[lower_b, upper_b]]. *)
Theorem hard_tanh_range (x lower_b upper_b : R) (Hb : lower_b <= upper_b) :
  lower_b <= Kernel.hard_tanh x lower_b upper_b <= upper_b.
Proof. unfold Kernel.hard_tanh, Kernel.clip_by_value; minmax. Qed.

Lemma hard_tanh_range_witness :
  -2 <= 2 /\ -2 <= Kernel.hard_tanh 5 (-2) 2 <= 2.
Proof. split; [lra | apply (hard_tanh_range 5 (-2) 2); lra]. Defined.

(** X2: with inverted bounds ([upper_b < lower_b]) [hard_tanh] returns
    [lower_b] for every [x]. *)
Theorem hard_tanh_inverted_bounds (x lower_b upper_b : R) (Hb : upper_b < lower_b) :
  Kernel.hard_tanh x lower_b upper_b = lower_b.
Proof. unfold Kernel.hard_tanh, Kernel.clip_by_value; minmax. Qed.

Lemma hard_tanh_inverted_bounds_witness :
  -1 < 1 /\ Kernel.hard_tanh 0 1 (-1) = 1.
Proof. split; [lra | apply (hard_tanh_inverted_bounds 0 1 (-1)); lra]. Defined.

(** X3: [hard_tanh] is idempotent for every pair of bounds, inverted ones
    included. *)
Theorem hard_tanh_idempotent_any_bounds (x lower_b upper_b : R) :
  Kernel.hard_tanh (Kernel.hard_tanh x lower_b upper_b) lower_b upper_b =
  Kernel.hard_tanh x lower_b upper_b.
Proof. apply clip_by_value_idem. Qed.

(** X4: [hard_tanh] never increases distances:
    [|hard_tanh x - hard_tanh y| <= |x - y|]. *)
Theorem hard_tanh_nonexpansive (x y lower_b upper_b : R) :
  Rabs (Kernel.hard_tanh x lower_b upper_b - Kernel.hard_tanh y lower_b upper_b) <= Rabs (x - y).
Proof.
  unfold Kernel.hard_tanh, Kernel.clip_by_value.
  unfold Rabs; repeat destruct Rcase_abs; minmax.
Qed.

(** X5: with symmetric bounds [[-b, b]], [b >= 0], [hard_tanh] is odd. *)
Theorem hard_tanh_odd (x b : R) (Hb : 0 <= b) :
  Kernel.hard_tanh (- x) (- b) b = - Kernel.hard_tanh x (- b) b.
Proof. unfold Kernel.hard_tanh, Kernel.clip_by_value; minmax. Qed.

Lemma hard_tanh_odd_witness :
  0 <= 1 /\ Kernel.hard_tanh (- 3) (- 1) 1 = - Kernel.hard_tanh 3 (- 1) 1.
Proof. split; [lra | apply (hard_tanh_odd 3 1); lra]. Defined.

(** X6: [hard_sigmoid] is symmetric about [(0, 0.5)]:
    [hard_sigmoid(-x) = 1 - hard_sigmoid(x)]. *)
Theorem hard_sigmoid_symmetric (x : R) :
  Kernel.hard_sigmoid (- x) = 1 - Kernel.hard_sigmoid x.
Proof. unfold Kernel.hard_sigmoid, Kernel.clip_by_value; minmax. Qed.

(** X7: [hard_sigmoid x = (hard_tanh(2 x) + 1) / 2] with the default bounds of
    [hard_tanh]. *)
Theorem hard_sigmoid_from_hard_tanh (x : R) :
  Kernel.hard_sigmoid x = (Kernel.hard_tanh_default (2 * x) + 1) / 2.
Proof.
  unfold Kernel.hard_sigmoid, Kernel.hard_tanh_default, Kernel.hard_tanh,
    Kernel.clip_by_value; minmax.
Qed.

(** X8: [leaky_tanh x alpha] is [hard_tanh x] plus [alpha] times the part of
    [x] that [hard_tanh] cuts off: [hard_tanh x + alpha * (x - hard_tanh x)]. *)
Theorem leaky_tanh_decomposition (x alpha : R) :
  Kernel.leaky_tanh x alpha =
  Kernel.hard_tanh_default x + alpha * (x - Kernel.hard_tanh_default x).
Proof. apply leaky_tanh_split. Qed.

(** X9: [leaky_tanh] with [alpha = 0] is [hard_tanh] with its default bounds,
    and with [alpha = 1] it is the identity. *)
Theorem leaky_tanh_alpha_extremes (x : R) :
  Kernel.leaky_tanh x 0 = Kernel.hard_tanh_default x /\ Kernel.leaky_tanh x 1 = x.
Proof.
  unfold Kernel.hard_tanh_default, Kernel.hard_tanh.
  rewrite !leaky_tanh_split. split; ring.
Qed.

(** X10: [leaky_tanh] is odd in [x] for every [alpha]. *)
Theorem leaky_tanh_odd (x alpha : R) :
  Kernel.leaky_tanh (- x) alpha = - Kernel.leaky_tanh x alpha.
Proof. rewrite !leaky_tanh_split, clip_by_value_neg. ring. Qed.

(** X11: for [alpha > 0], [leaky_tanh] is strictly increasing, so (unlike
    [hard_tanh]) it never maps two different inputs to the same output. *)
Theorem leaky_tanh_strictly_increasing (x y alpha : R) (Ha : 0 < alpha) (Hxy : x < y) :
  Kernel.leaky_tanh x alpha < Kernel.leaky_tanh y alpha.
Proof.
  rewrite !leaky_tanh_split. unfold Kernel.clip_by_value.
  unfold Rmax, Rmin; repeat destruct Rle_dec; nra.
Qed.

Lemma leaky_tanh_strictly_increasing_witness :
  0 < 2/10 /\ 2 < 3 /\ Kernel.leaky_tanh 2 (2/10) < Kernel.leaky_tanh 3 (2/10).
Proof.
  split; [lra | split; [lra | apply (leaky_tanh_strictly_increasing 2 3 (2/10)); lra]].
Defined.

(** X12: for [0 <= alpha <= 1], [leaky_tanh] moves no input away from [0]:
    [|leaky_tanh x alpha| <= |x|]. *)
Theorem leaky_tanh_contracts (x alpha : R) (Ha : 0 <= alpha <= 1) :
  Rabs (Kernel.leaky_tanh x alpha) <= Rabs x.
Proof.
  rewrite leaky_tanh_split. unfold Kernel.clip_by_value.
  unfold Rabs, Rmax, Rmin; repeat destruct Rcase_abs; repeat destruct Rle_dec; nra.
Qed.

Lemma leaky_tanh_contracts_witness :
  0 <= 2/10 <= 1 /\ Rabs (Kernel.leaky_tanh (-5) (2/10)) <= Rabs (-5).
Proof. split; [lra | apply (leaky_tanh_contracts (-5) (2/10)); lra]. Defined.

(** X13: calling a [HardTanh] layer on its own output changes nothing, for
    any bounds it was built with and any input tensor. *)
Theorem HardTanh_call_idempotent (lower_b upper_b : R) (inputs : Tensor.tensor) :
  let layer := Layers.HardTanh_init lower_b upper_b in
  Layers.HardTanh_call layer (Layers.HardTanh_call layer inputs) =
  Layers.HardTanh_call layer inputs.
Proof.
  unfold Layers.HardTanh_call, Layers.HardTanh_init; cbn [Layers.lower_b Layers.upper_b].
  rewrite !hard_tanh_tmap, tmap_tmap.
  unfold Tensor.tmap; f_equal. apply map_ext. intro v. apply clip_by_value_idem.
Qed.

(** X14: every element of the output of a [HardTanh] layer built with
    [lower_b <= upper_b] lies in [[lower_b, upper_b]]. *)
Theorem HardTanh_call_bounded (lower_b upper_b : R) (inputs : Tensor.tensor)
  (Hb : lower_b <= upper_b) :
  Forall (fun v => lower_b <= v <= upper_b)
    (Tensor.data (Layers.HardTanh_call (Layers.HardTanh_init lower_b upper_b) inputs)).
Proof.
  unfold Layers.HardTanh_call, Layers.HardTanh_init; cbn [Layers.lower_b Layers.upper_b].
  rewrite hard_tanh_tmap.
  apply Forall_forall. unfold Tensor.tmap; simpl. intros v Hv.
  apply in_map_iff in Hv as [u [<- _]].
  unfold Kernel.hard_tanh, Kernel.clip_by_value; minmax.
Qed.

Lemma HardTanh_call_bounded_witness :
  -1 <= 1 /\
  Forall (fun v => -1 <= v <= 1)
    (Tensor.data (Layers.HardTanh_call (Layers.HardTanh_init (-1) 1)
                   (Tensor.mkTensor [2%nat] [-3; 1/2]))).
Proof. split; [lra | apply (HardTanh_call_bounded (-1) 1); lra]. Defined.

(** X15: every element of the output of a [HardSigmoid] layer lies in
    [[0, 1]], for any input tensor. *)
Theorem HardSigmoid_call_bounded (inputs : Tensor.tensor) :
  Forall (fun v => 0 <= v <= 1)
    (Tensor.data (Layers.HardSigmoid_call Layers.HardSigmoid_init inputs)).
Proof.
  unfold Layers.HardSigmoid_call. rewrite hard_sigmoid_tmap.
  apply Forall_forall. unfold Tensor.tmap; simpl. intros v Hv.
  apply in_map_iff in Hv as [u [<- _]].
  unfold Kernel.hard_sigmoid, Kernel.clip_by_value; minmax.
Qed.

(** X16: [HardTanh.get_config] maps ["lower_b"] and ["upper_b"] to the
    layer's bounds, whatever the base configuration holds under those keys. *)
Theorem HardTanh_get_config_bounds (layer : Layers.HardTanh) (base : Config.dict) :
  Config.lookup "lower_b"%string (Config.HardTanh_get_config layer base) =
    Some (Config.PFloat (Layers.lower_b layer)) /\
  Config.lookup "upper_b"%string (Config.HardTanh_get_config layer base) =
    Some (Config.PFloat (Layers.upper_b layer)).
Proof.
  unfold Config.HardTanh_get_config. split.
  - rewrite lookup_set_other by discriminate. apply lookup_set_same.
  - apply lookup_set_same.
Qed.

(** X17: every other key of the base configuration keeps its value in
    [HardTanh.get_config]. *)
Theorem HardTanh_get_config_other_keys (layer : Layers.HardTanh) (base : Config.dict)
  (k : string) (H1 : k <> "lower_b"%string) (H2 : k <> "upper_b"%string) :
  Config.lookup k (Config.HardTanh_get_config layer base) = Config.lookup k base.
Proof.
  unfold Config.HardTanh_get_config.
  rewrite !lookup_set_other by assumption. reflexivity.
Qed.

Lemma HardTanh_get_config_other_keys_witness :
  "name"%string <> "lower_b"%string /\ "name"%string <> "upper_b"%string /\
  Config.lookup "name" (Config.HardTanh_get_config (Layers.HardTanh_init (-1) 1)
                          [("name", Config.PStr "hard_tanh")])%string =
  Config.lookup "name" [("name", Config.PStr "hard_tanh")]%string.
Proof.
  split; [discriminate | split; [discriminate|]].
  apply HardTanh_get_config_other_keys; discriminate.
Defined.

(** X18: [HardTanh.get_config] adds no duplicate key: if the base
    configuration has distinct keys, so has the result. *)
Theorem HardTanh_get_config_nodup (layer : Layers.HardTanh) (base : Config.dict)
  (H : NoDup (Config.keys base)) :
  NoDup (Config.keys (Config.HardTanh_get_config layer base)).
Proof. unfold Config.HardTanh_get_config. now apply set_nodup, set_nodup. Qed.

Lemma HardTanh_get_config_nodup_witness :
  NoDup (Config.keys [("name", Config.PStr "hard_tanh"); ("lower_b", Config.PFloat 0)]%string) /\
  NoDup (Config.keys (Config.HardTanh_get_config (Layers.HardTanh_init (-1) 1)
           [("name", Config.PStr "hard_tanh"); ("lower_b", Config.PFloat 0)]%string)).
Proof.
  assert (Hd : NoDup (Config.keys [("name", Config.PStr "hard_tanh");
                                   ("lower_b", Config.PFloat 0)]%string)).
  { simpl. constructor; [simpl; intros [H|[]]; discriminate |].
    constructor; [intros [] | constructor]. }
  split; [exact Hd | apply HardTanh_get_config_nodup; exact Hd].
Defined.

